(** * Camera control and scene emission of the interactive cube viewer

    A shallow embedding of [src/main.py] (class [OpenGLWidget]).

    Numbers.  The program computes with Python floats (IEEE binary64).  The
    main model reads every float as a real number and every operation as the
    exact one; [np.sin], [np.cos] and [np.radians] are the real functions.
    Module [Binary64], further down, repeats the handlers that need no
    trigonometry on Rocq's primitive binary64 floats, so that the concrete
    scenarios are also evaluated bit for bit.  What compares the results of
    two runs of a handler is stated on these floats, where rounding counts.

    Events.  A handler is a function from the widget's fields (and the
    event's payload) to the widget's fields.  [print] and [self.update()]
    (a repaint request) touch no field and are left out. *)

From Stdlib Require Import Reals Lra ZArith List Bool Lia.
From Stdlib Require Floats Uint63.
Import ListNotations.

Set Warnings "-inexact-float".

Open Scope R_scope.

(** ** Python builtins *)

Module Py.

(** [a < b] on floats, as a boolean. *)
Definition ltb (a b : R) : bool := if Rlt_dec a b then true else false.

(** [min(a, b)]: the first argument is kept unless the second is strictly
    smaller. *)
Definition min (a b : R) : R := if ltb b a then b else a.

(** [max(a, b)]: the first argument is kept unless the second is strictly
    greater. *)
Definition max (a b : R) : R := if ltb a b then b else a.

(** [range(a, b)] over integers. *)
Definition range (a b : Z) : list Z :=
  map (fun k => (a + Z.of_nat k)%Z) (seq 0 (Z.to_nat (b - a))).

(** [a / b] on integers: true division, [ZeroDivisionError] as [None]. *)
Definition truediv (a b : Z) : option R :=
  if (b =? 0)%Z then None else Some (IZR a / IZR b).

End Py.

(** ** Qt values *)

(** [QPointF]: a point with float coordinates. *)
Record QPointF : Type := mkQPointF { x : R; y : R }.

(** [QPointF.__sub__] *)
Definition QPointF_sub (p q : QPointF) : QPointF :=
  mkQPointF (x p - x q) (y p - y q).

(** [QPointF.__add__] *)
Definition QPointF_add (p q : QPointF) : QPointF :=
  mkQPointF (x p + x q) (y p + y q).

(** [QPointF::isNull]: both coordinates are zero. *)
Definition QPointF_isNull (p : QPointF) : bool :=
  (if Req_dec_T (x p) 0 then true else false) &&
  (if Req_dec_T (y p) 0 then true else false).

(** Truth value of a [QPointF] object, as [if self.last_mouse_pos:] reads
    it.  PySide6 is generated with shiboken's [use-isnull-as-nb-bool] option:
    an object of a wrapped class that has an [isNull] method is true exactly
    when [isNull()] is false.  So the point (0, 0) is a false value and every
    other point is a true one. *)
Definition QPointF_bool (p : QPointF) : bool := negb (QPointF_isNull p).

(** [Qt.MouseButton] flags, as [event.buttons()] returns them. *)
Definition Qt_LeftButton : Z := 1.
Definition Qt_RightButton : Z := 2.

(** ** numpy values *)

(** A float array of length three. *)
Record vec3 : Type := mkvec3 { v0 : R; v1 : R; v2 : R }.

Definition vec3_add (a b : vec3) : vec3 :=
  mkvec3 (v0 a + v0 b) (v1 a + v1 b) (v2 a + v2 b).

Definition vec3_sub (a b : vec3) : vec3 :=
  mkvec3 (v0 a - v0 b) (v1 a - v1 b) (v2 a - v2 b).

(** [a * k] for an array and a scalar. *)
Definition vec3_scale (a : vec3) (k : R) : vec3 :=
  mkvec3 (v0 a * k) (v1 a * k) (v2 a * k).

(** [np.cross(a, b)] *)
Definition np_cross (a b : vec3) : vec3 :=
  mkvec3 (v1 a * v2 b - v2 a * v1 b)
         (v2 a * v0 b - v0 a * v2 b)
         (v0 a * v1 b - v1 a * v0 b).

(** [np.radians(d)] *)
Definition np_radians (d : R) : R := d * (PI / 180).

(** ** The widget *)

Record OpenGLWidget : Type := mkWidget {
  last_mouse_pos : option QPointF;
  theta : R;
  phi : R;
  zoom : R;
  pan_offset : vec3;
  hovered_face : option Z
}.

(** [OpenGLWidget.__init__] *)
Definition init : OpenGLWidget :=
  mkWidget None 45.0 45.0 5.0 (mkvec3 0.0 0.0 0.0) None.

(** [mousePressEvent] *)
Definition mousePressEvent (self : OpenGLWidget) (position : QPointF)
  : OpenGLWidget :=
  mkWidget (Some position) (theta self) (phi self) (zoom self)
           (pan_offset self) (hovered_face self).

(** The orbit branch of [mouseMoveEvent]. *)
Definition orbit (self : OpenGLWidget) (delta : QPointF) : OpenGLWidget :=
  let theta' := theta self - x delta * 0.5 in
  let phi' := phi self - y delta * 0.5 in
  let phi'' := Py.max 1.0 (Py.min 179.0 phi') in
  mkWidget (last_mouse_pos self) theta' phi'' (zoom self)
           (pan_offset self) (hovered_face self).

(** [forward], [right] and [up] of the pan branch of [mouseMoveEvent]. *)
Definition forward (self : OpenGLWidget) : vec3 :=
  mkvec3 (- sin (np_radians (phi self)) * cos (np_radians (theta self)))
         (- sin (np_radians (phi self)) * sin (np_radians (theta self)))
         (cos (np_radians (phi self))).

Definition right (self : OpenGLWidget) : vec3 :=
  mkvec3 (sin (np_radians (theta self)))
         (- cos (np_radians (theta self)))
         0.0.

Definition up (self : OpenGLWidget) : vec3 :=
  np_cross (right self) (forward self).

(** The pan branch of [mouseMoveEvent]. *)
Definition pan (self : OpenGLWidget) (delta : QPointF) : OpenGLWidget :=
  let pan_sensitivity := 0.01 in
  let p1 :=
    vec3_add (pan_offset self)
             (vec3_scale (vec3_scale (right self) (x delta)) pan_sensitivity) in
  let p2 :=
    vec3_add p1
             (vec3_scale (vec3_scale (up self) (- y delta)) pan_sensitivity) in
  mkWidget (last_mouse_pos self) (theta self) (phi self) (zoom self)
           p2 (hovered_face self).

(** [mouseMoveEvent].  The guard [if self.last_mouse_pos:] passes when the
    anchor is not [None] and is a true value; the anchor is moved to the
    pointer inside the guard, after the branch on the buttons. *)
Definition mouseMoveEvent (self : OpenGLWidget) (position : QPointF)
    (buttons : Z) : OpenGLWidget :=
  match last_mouse_pos self with
  | Some anchor =>
    if QPointF_bool anchor then
      let delta := QPointF_sub position anchor in
      let self1 :=
        if (buttons =? Qt_LeftButton)%Z then orbit self delta
        else if (buttons =? Qt_RightButton)%Z then pan self delta
        else self in
      mkWidget (Some position) (theta self1) (phi self1) (zoom self1)
               (pan_offset self1) (hovered_face self1)
    else self
  | None => self
  end.

(** [mouseReleaseEvent] *)
Definition mouseReleaseEvent (self : OpenGLWidget) : OpenGLWidget :=
  mkWidget None (theta self) (phi self) (zoom self)
           (pan_offset self) (hovered_face self).

(** [wheelEvent]; [delta] is [event.angleDelta().y()], an integer. *)
Definition wheelEvent (self : OpenGLWidget) (delta : Z) : OpenGLWidget :=
  let zoom' := zoom self - IZR delta * 0.01 in
  let zoom'' := Py.max 2.0 (Py.min 20.0 zoom') in
  mkWidget (last_mouse_pos self) (theta self) (phi self) zoom''
           (pan_offset self) (hovered_face self).

(** ** Input events *)

Inductive Event : Type :=
| Press (position : QPointF)
| Move (position : QPointF) (buttons : Z)
| Release
| Wheel (delta : Z).

(** The handler the toolkit calls for an event. *)
Definition handle (self : OpenGLWidget) (e : Event) : OpenGLWidget :=
  match e with
  | Press p => mousePressEvent self p
  | Move p b => mouseMoveEvent self p b
  | Release => mouseReleaseEvent self
  | Wheel d => wheelEvent self d
  end.

(** The widget after each event of a sequence, in order. *)
Fixpoint trace (self : OpenGLWidget) (es : list Event) : list OpenGLWidget :=
  match es with
  | [] => []
  | e :: es' => let self' := handle self e in self' :: trace self' es'
  end.

(** ** OpenGL calls *)

Definition GL_LINES : Z := 1.
Definition GL_PROJECTION : Z := 5889.
Definition GL_MODELVIEW : Z := 5888.
Definition GL_COLOR_BUFFER_BIT : Z := 16384.
Definition GL_DEPTH_BUFFER_BIT : Z := 256.

(** The calls the widget issues, with their arguments. *)
Inductive GLcall : Type :=
| glViewport (x0 y0 w h : Z)
| glMatrixMode (mode : Z)
| glLoadIdentity
| glFrustum (left right bottom top near far : R)
| glClear (mask : Z)
| gluLookAt (eye center upv : vec3)
| glColor3f (r g b : R)
| glBegin (mode : Z)
| glVertex3f (vx vy vz : R)
| glEnd.

(** [w / h if h != 0 else 1.0] *)
Definition aspect_ratio (w h : Z) : option R :=
  if negb (h =? 0)%Z then Py.truediv w h else Some 1.0.

(** [resizeGL]: the calls issued, or [None] when an exception escapes. *)
Definition resizeGL (w h : Z) : option (list GLcall) :=
  match aspect_ratio w h with
  | None => None
  | Some a =>
    Some [ glViewport 0 0 w h;
           glMatrixMode GL_PROJECTION;
           glLoadIdentity;
           glFrustum (- a) a (- 1.0) 1.0 1.0 50.0;
           glMatrixMode GL_MODELVIEW ]
  end.

(** [eye_x], [eye_y], [eye_z] of [paintGL]. *)
Definition eye (self : OpenGLWidget) : vec3 :=
  mkvec3
    (zoom self * sin (np_radians (phi self)) * cos (np_radians (theta self)))
    (zoom self * sin (np_radians (phi self)) * sin (np_radians (theta self)))
    (zoom self * cos (np_radians (phi self))).

(** [target] of [paintGL]. *)
Definition target (self : OpenGLWidget) : vec3 :=
  vec3_add (mkvec3 0.0 0.0 0.0) (pan_offset self).

(** The camera set-up of [paintGL]: the calls before the draw calls. *)
Definition paintGL_camera (self : OpenGLWidget) : list GLcall :=
  [ glClear (Z.lor GL_COLOR_BUFFER_BIT GL_DEPTH_BUFFER_BIT);
    glLoadIdentity;
    gluLookAt (vec3_add (eye self) (target self)) (target self)
              (mkvec3 0 0 1) ].

(** The four vertices [draw_grid] emits for the loop index [i]. *)
Definition grid_lines (size : Z) (step : R) (i : Z) : list GLcall :=
  [ glVertex3f (IZR i * step) 0.0 (IZR (- size) * step);
    glVertex3f (IZR i * step) 0.0 (IZR size * step);
    glVertex3f (IZR (- size) * step) 0.0 (IZR i * step);
    glVertex3f (IZR size * step) 0.0 (IZR i * step) ].

(** [draw_grid(size, step)] *)
Definition draw_grid (size : Z) (step : R) : list GLcall :=
  [ glColor3f 0.5 0.5 0.5; glBegin GL_LINES ]
  ++ flat_map (grid_lines size step) (Py.range (- size) (size + 1))
  ++ [ glEnd ].

(** [self.draw_grid()], with the default arguments, as [paintGL] calls it. *)
Definition draw_grid_default : list GLcall := draw_grid 10 1.0.

(** ** Notions of the specification *)

(** Clamping to [[lo, hi]]. *)
Definition clamp (v lo hi : R) : R :=
  if Rlt_dec v lo then lo else if Rlt_dec hi v then hi else v.

Definition norm (v : vec3) : R :=
  sqrt (v0 v * v0 v + v1 v * v1 v + v2 v * v2 v).

(** The unit vector that points from [a] toward [b]. *)
Definition unit_direction (a b : vec3) : vec3 :=
  let d := vec3_sub b a in
  mkvec3 (v0 d / norm d) (v1 d / norm d) (v2 d / norm d).

(** The eye position of the specification: the target, plus the distance
    times the unit vector of the spherical angles. *)
Definition eyePosition (self : OpenGLWidget) : vec3 :=
  vec3_add (target self)
    (vec3_scale
       (mkvec3 (sin (np_radians (phi self)) * cos (np_radians (theta self)))
               (sin (np_radians (phi self)) * sin (np_radians (theta self)))
               (cos (np_radians (phi self))))
       (zoom self)).

Definition phi_in_range (self : OpenGLWidget) : Prop := 1 <= phi self <= 179.

Definition zoom_in_range (self : OpenGLWidget) : Prop := 2 <= zoom self <= 20.

(** A drag with the primary button: [mouseMoveEvent] with only the left
    button held. *)
Definition drag_primary (position : QPointF) : Event :=
  Move position Qt_LeftButton.

(** The widget after two consecutive primary-button drags, by [d1] and then
    by [d2], from the anchor [a]. *)
Definition two_drags (self : OpenGLWidget) (a d1 d2 : QPointF) : OpenGLWidget :=
  mouseMoveEvent
    (mouseMoveEvent self (QPointF_add a d1) Qt_LeftButton)
    (QPointF_add (QPointF_add a d1) d2) Qt_LeftButton.

(** The widget after one primary-button drag by [d1 + d2]. *)
Definition one_drag (self : OpenGLWidget) (a d1 d2 : QPointF) : OpenGLWidget :=
  mouseMoveEvent self (QPointF_add a (QPointF_add d1 d2)) Qt_LeftButton.

(** ** The rest of the rendering pass *)

Definition GL_QUADS : Z := 7.

(** The calls of the rendering pass: those above, and [glColor4f], which
    only [draw_cube] issues. *)
Inductive Call : Type :=
| gl (c : GLcall)
| glColor4f (r g b a : R).

(** [draw_axes] *)
Definition draw_axes : list GLcall :=
  [ glBegin GL_LINES;
    glColor3f 1.0 0.0 0.0;
    glVertex3f (- 2.0) 0.0 0.0;
    glVertex3f 2.0 0.0 0.0;
    glColor3f 0.0 1.0 0.0;
    glVertex3f 0.0 (- 2.0) 0.0;
    glVertex3f 0.0 2.0 0.0;
    glColor3f 0.0 0.0 1.0;
    glVertex3f 0.0 0.0 (- 2.0);
    glVertex3f 0.0 0.0 2.0;
    glEnd ].

(** [vertices], [faces] and [face_colors] of [draw_cube]. *)
Definition vertices : list vec3 :=
  [ mkvec3 (- 1.0) (- 1.0) 1.0; mkvec3 1.0 (- 1.0) 1.0;
    mkvec3 1.0 1.0 1.0; mkvec3 (- 1.0) 1.0 1.0;
    mkvec3 (- 1.0) (- 1.0) (- 1.0); mkvec3 (- 1.0) 1.0 (- 1.0);
    mkvec3 1.0 1.0 (- 1.0); mkvec3 1.0 (- 1.0) (- 1.0);
    mkvec3 (- 1.0) (- 1.0) (- 1.0); mkvec3 (- 1.0) (- 1.0) 1.0;
    mkvec3 (- 1.0) 1.0 1.0; mkvec3 (- 1.0) 1.0 (- 1.0);
    mkvec3 1.0 (- 1.0) (- 1.0); mkvec3 1.0 1.0 (- 1.0);
    mkvec3 1.0 1.0 1.0; mkvec3 1.0 (- 1.0) 1.0;
    mkvec3 (- 1.0) 1.0 (- 1.0); mkvec3 (- 1.0) 1.0 1.0;
    mkvec3 1.0 1.0 1.0; mkvec3 1.0 1.0 (- 1.0);
    mkvec3 (- 1.0) (- 1.0) (- 1.0); mkvec3 1.0 (- 1.0) 1.0;
    mkvec3 1.0 (- 1.0) (- 1.0); mkvec3 (- 1.0) (- 1.0) 1.0 ].

Definition faces : list (list nat) :=
  [ [0; 1; 2; 3];
    [4; 5; 6; 7];
    [8; 9; 10; 11];
    [12; 13; 14; 15];
    [16; 17; 18; 19];
    [20; 21; 22; 23] ]%nat.

Definition face_colors : list vec3 :=
  [ mkvec3 1.0 0.0 0.0;
    mkvec3 0.0 1.0 0.0;
    mkvec3 0.0 0.0 1.0;
    mkvec3 1.0 1.0 0.0;
    mkvec3 1.0 0.0 1.0;
    mkvec3 0.0 1.0 1.0 ].

(** A loop whose body may raise: the results in order, or [None] as soon
    as one iteration raises. *)
Fixpoint for_each {A B : Type} (f : A -> option (list B)) (l : list A)
  : option (list B) :=
  match l with
  | [] => Some []
  | a :: l' =>
    match f a with
    | None => None
    | Some bs =>
      match for_each f l' with
      | None => None
      | Some rest => Some (bs ++ rest)
      end
    end
  end.

(** [enumerate(l)] *)
Definition enumerate {A : Type} (l : list A) : list (nat * A) :=
  combine (seq 0 (length l)) l.

(** [self.hovered_face == i] *)
Definition is_hovered (self : OpenGLWidget) (i : nat) : bool :=
  match hovered_face self with
  | None => false
  | Some h => (h =? Z.of_nat i)%Z
  end.

(** [glVertex3f( *vertices[vertex])]; an index out of range raises. *)
Definition cube_vertex (vertex : nat) : option (list Call) :=
  match nth_error vertices vertex with
  | None => None
  | Some v => Some [ gl (glVertex3f (v0 v) (v1 v) (v2 v)) ]
  end.

(** The body of the loop over the faces in [draw_cube]. *)
Definition cube_face (self : OpenGLWidget) (entry : nat * list nat)
  : option (list Call) :=
  let (i, face) := entry in
  match nth_error face_colors i with
  | None => None
  | Some c =>
    let alpha := if is_hovered self i then 0.5 else 1.0 in
    match for_each cube_vertex face with
    | None => None
    | Some vs =>
      Some ([ glColor4f (v0 c) (v1 c) (v2 c) alpha; gl (glBegin GL_QUADS) ]
            ++ vs ++ [ gl glEnd ])
    end
  end.

(** [draw_cube]: the calls issued, or [None] when an index is out of
    range. *)
Definition draw_cube (self : OpenGLWidget) : option (list Call) :=
  for_each (cube_face self) (enumerate faces).

(** [paintGL] *)
Definition paintGL (self : OpenGLWidget) : option (list Call) :=
  match draw_cube self with
  | None => None
  | Some cube =>
    Some (map gl (paintGL_camera self)
          ++ map gl draw_axes
          ++ map gl draw_grid_default
          ++ cube)
  end.

(** ** Notions used to state what the rest of the code does *)

Definition dot (a b : vec3) : R := v0 a * v0 b + v1 a * v1 b + v2 a * v2 b.

(** The length of a pointer displacement. *)
Definition QPointF_length (d : QPointF) : R := sqrt (x d * x d + y d * y d).

(** The rule of immediate mode: [glBegin] and [glEnd] alternate, a vertex
    is given between them only, and between them nothing but vertices and
    colours is given.  [inside] tells whether a [glBegin] is open. *)
Fixpoint well_bracketed (inside : bool) (cs : list Call) : bool :=
  match cs with
  | [] => negb inside
  | c :: cs' =>
    match c with
    | gl (glBegin _) => negb inside && well_bracketed true cs'
    | gl glEnd => inside && well_bracketed false cs'
    | gl (glVertex3f _ _ _) => inside && well_bracketed inside cs'
    | gl (glColor3f _ _ _) => well_bracketed inside cs'
    | glColor4f _ _ _ _ => well_bracketed inside cs'
    | gl _ => negb inside && well_bracketed inside cs'
    end
  end.

(** The alpha values of the [glColor4f] calls, in order. *)
Fixpoint alphas (cs : list Call) : list R :=
  match cs with
  | [] => []
  | glColor4f _ _ _ a :: cs' => a :: alphas cs'
  | gl _ :: cs' => alphas cs'
  end.

(** The vertices given between each [glBegin] and its [glEnd], one list
    per pair, in order. *)
Fixpoint primitives (cur : list vec3) (cs : list Call) : list (list vec3) :=
  match cs with
  | [] => []
  | gl (glVertex3f vx vy vz) :: cs' => primitives (cur ++ [mkvec3 vx vy vz]) cs'
  | gl (glBegin _) :: cs' => primitives [] cs'
  | gl glEnd :: cs' => cur :: primitives [] cs'
  | _ :: cs' => primitives cur cs'
  end.

(** The [gluLookAt] of [paintGL] is well posed: the eye is between 2 and 20
    away from the centre, and the line of sight is not parallel to the up
    vector. *)
Definition lookAt_well_posed (self : OpenGLWidget) : Prop :=
  forall e t u : vec3,
    In (gluLookAt e t u) (paintGL_camera self) ->
    2 <= norm (vec3_sub t e) <= 20 /\
    np_cross (vec3_sub t e) u <> mkvec3 0 0 0.

(** Two corners of the cube that differ in one coordinate only: the ends
    of an edge. *)
Definition adjacent (a b : vec3) : Prop :=
  (v0 a <> v0 b /\ v1 a = v1 b /\ v2 a = v2 b) \/
  (v0 a = v0 b /\ v1 a <> v1 b /\ v2 a = v2 b) \/
  (v0 a = v0 b /\ v1 a = v1 b /\ v2 a <> v2 b).

(** Four vertices given in the order of the perimeter of a square: each
    one and the next, and the last and the first, are the ends of an edge. *)
Definition perimeter_order (q : list vec3) : Prop :=
  match q with
  | [a; b; c; d] => adjacent a b /\ adjacent b c /\ adjacent c d /\ adjacent d a
  | _ => False
  end.




(** ** The trigonometry-free handlers on binary64 floats *)

Module Binary64.

Import Floats.
Local Open Scope float_scope.

(** [min(a, b)] and [max(a, b)]; a comparison with NaN is false. *)
Definition min (a b : float) : float := if PrimFloat.ltb b a then b else a.
Definition max (a b : float) : float := if PrimFloat.ltb a b then b else a.

(** The float of a Python integer, exact below 2^53 in magnitude; the
    integers of the toolkit are C [int]s. *)
Definition of_int (z : Z) : float :=
  match z with
  | Z0 => 0
  | Zpos _ => PrimFloat.of_uint63 (Uint63.of_Z z)
  | Zneg p => - PrimFloat.of_uint63 (Uint63.of_Z (Zpos p))
  end.

Record QPointF : Type := mkQPointF { x : float; y : float }.

Definition QPointF_sub (p q : QPointF) : QPointF :=
  mkQPointF (x p - x q) (y p - y q).

(** [QPointF::isNull]: both coordinates compare equal to zero. *)
Definition QPointF_isNull (p : QPointF) : bool :=
  PrimFloat.eqb (x p) 0 && PrimFloat.eqb (y p) 0.

Definition QPointF_bool (p : QPointF) : bool := negb (QPointF_isNull p).

Record OpenGLWidget : Type := mkWidget {
  last_mouse_pos : option QPointF;
  theta : float;
  phi : float;
  zoom : float;
  pan_offset : float * float * float;
  hovered_face : option Z
}.

Definition init : OpenGLWidget :=
  mkWidget None 45.0 45.0 5.0 (0.0, 0.0, 0.0) None.

Definition mousePressEvent (self : OpenGLWidget) (position : QPointF)
  : OpenGLWidget :=
  mkWidget (Some position) (theta self) (phi self) (zoom self)
           (pan_offset self) (hovered_face self).

Definition orbit (self : OpenGLWidget) (delta : QPointF) : OpenGLWidget :=
  let theta' := theta self - x delta * 0.5 in
  let phi' := phi self - y delta * 0.5 in
  let phi'' := max 1.0 (min 179.0 phi') in
  mkWidget (last_mouse_pos self) theta' phi'' (zoom self)
           (pan_offset self) (hovered_face self).

(** [mouseMoveEvent] with the left button, with another button that is not
    the right one, or with none: the pan branch is not taken. *)
Definition mouseMoveEvent_nopan (self : OpenGLWidget) (position : QPointF)
    (left : bool) : OpenGLWidget :=
  match last_mouse_pos self with
  | Some anchor =>
    if QPointF_bool anchor then
      let delta := QPointF_sub position anchor in
      let self1 := if left then orbit self delta else self in
      mkWidget (Some position) (theta self1) (phi self1) (zoom self1)
               (pan_offset self1) (hovered_face self1)
    else self
  | None => self
  end.

Definition mouseReleaseEvent (self : OpenGLWidget) : OpenGLWidget :=
  mkWidget None (theta self) (phi self) (zoom self)
           (pan_offset self) (hovered_face self).

Definition wheelEvent (self : OpenGLWidget) (delta : Z) : OpenGLWidget :=
  let zoom' := zoom self - of_int delta * 0.01 in
  let zoom'' := max 2.0 (min 20.0 zoom') in
  mkWidget (last_mouse_pos self) (theta self) (phi self) zoom''
           (pan_offset self) (hovered_face self).

(** [lo <= v <= hi] on floats; false when one of them is NaN. *)
Definition between (lo hi v : float) : bool :=
  PrimFloat.leb lo v && PrimFloat.leb v hi.

End Binary64.

(** ** Whole-number pointer positions on binary64 floats *)

Module Pixels.

Import Floats Binary64.
Local Open Scope float_scope.

(** The pointer position with the whole-number coordinates [p]. *)
Definition point (p : Z * Z) : QPointF :=
  mkQPointF (of_int (fst p)) (of_int (snd p)).



(** [mouseMoveEvent] with the primary button alone. *)
Definition drag (self : OpenGLWidget) (position : QPointF) : OpenGLWidget :=
  mouseMoveEvent_nopan self position true.

(** The widget after two consecutive primary-button drags, by [d1] and then
    by [d2], from the anchor [a], and after one such drag by [d1 + d2]. *)
Definition two_drags (self : OpenGLWidget) (a d1 d2 : Z * Z) : OpenGLWidget :=
  drag (drag self (point (fst a + fst d1, snd a + snd d1))%Z)
       (point (fst a + fst d1 + fst d2, snd a + snd d1 + snd d2))%Z.

Definition one_drag (self : OpenGLWidget) (a d1 d2 : Z * Z) : OpenGLWidget :=
  drag self (point (fst a + (fst d1 + fst d2), snd a + (snd d1 + snd d2)))%Z.


End Pixels.

(** ** Floats that carry an integer, as the specification of binary64
    arithmetic writes them *)

Module Exact.

Import Floats.

(** [p * 2 ^ j], for [j] not negative. *)
Definition shl (p : positive) (j : Z) : positive :=
  match j with
  | Zpos d => Pos.iter xO p d
  | _ => p
  end.




End Exact.

(** * Theorems *)

(** ** Comparisons, [min] and [max] *)

Lemma ltb_true (a b : R) : Py.ltb a b = true <-> a < b.
Proof.
  unfold Py.ltb. destruct (Rlt_dec a b); split; intros; auto; discriminate.
Qed.

Lemma ltb_false (a b : R) : Py.ltb a b = false <-> b <= a.
Proof.
  unfold Py.ltb.
  destruct (Rlt_dec a b); split; intros; auto; try discriminate; lra.
Qed.

(** Splits on the outcome of every [Py.ltb] test in the goal and turns the
    outcome into an inequality. *)
Ltac py_cases :=
  repeat match goal with
  | |- context [Py.ltb ?a ?b] =>
    let E := fresh "E" in
    destruct (Py.ltb a b) eqn:E;
    [ apply ltb_true in E | apply ltb_false in E ]
  | H : context [Py.ltb ?a ?b] |- _ =>
    let E := fresh "E" in
    destruct (Py.ltb a b) eqn:E;
    [ apply ltb_true in E | apply ltb_false in E ]
  end.

Lemma min_is_Rmin (a b : R) : Py.min a b = Rmin a b.
Proof.
  unfold Py.min, Rmin. py_cases; destruct (Rle_dec a b); lra.
Qed.

Lemma max_is_Rmax (a b : R) : Py.max a b = Rmax a b.
Proof.
  unfold Py.max, Rmax. py_cases; destruct (Rle_dec a b); lra.
Qed.

(** [max(lo, min(hi, v))] is the clamp of [v] to [[lo, hi]]. *)
Lemma max_min_is_clamp (lo hi v : R) :
  lo <= hi -> Py.max lo (Py.min hi v) = clamp v lo hi.
Proof.
  intros Hle. unfold Py.max, Py.min, clamp.
  py_cases; destruct (Rlt_dec v lo); destruct (Rlt_dec hi v); lra.
Qed.

Lemma max_min_in_range (lo hi v : R) :
  lo <= hi -> lo <= Py.max lo (Py.min hi v) <= hi.
Proof.
  intros Hle. unfold Py.max, Py.min. py_cases; lra.
Qed.

(** ** What each handler does to each field *)

Lemma phi_orbit (self : OpenGLWidget) (delta : QPointF) :
  phi (orbit self delta) = Py.max 1.0 (Py.min 179.0 (phi self - y delta * 0.5)).
Proof. reflexivity. Qed.

Lemma theta_orbit (self : OpenGLWidget) (delta : QPointF) :
  theta (orbit self delta) = theta self - x delta * 0.5.
Proof. reflexivity. Qed.

Lemma phi_pan (self : OpenGLWidget) (delta : QPointF) :
  phi (pan self delta) = phi self.
Proof. reflexivity. Qed.

Lemma zoom_mouseMoveEvent (self : OpenGLWidget) (p : QPointF) (b : Z) :
  zoom (mouseMoveEvent self p b) = zoom self.
Proof.
  unfold mouseMoveEvent.
  destruct (last_mouse_pos self) as [a|]; [|reflexivity].
  destruct (QPointF_bool a); [|reflexivity].
  destruct (b =? Qt_LeftButton)%Z; [reflexivity|].
  destruct (b =? Qt_RightButton)%Z; reflexivity.
Qed.

(** A move either leaves [phi] alone or sets it to a clamped value. *)
Lemma phi_mouseMoveEvent (self : OpenGLWidget) (p : QPointF) (b : Z) :
  phi (mouseMoveEvent self p b) = phi self \/
  exists v, phi (mouseMoveEvent self p b) = Py.max 1.0 (Py.min 179.0 v).
Proof.
  unfold mouseMoveEvent.
  destruct (last_mouse_pos self) as [a|]; [|now left].
  destruct (QPointF_bool a); [|now left].
  destruct (b =? Qt_LeftButton)%Z.
  - right. eexists. reflexivity.
  - left. destruct (b =? Qt_RightButton)%Z; reflexivity.
Qed.

(** ** Invariants of the event loop *)

Lemma handle_phi_in_range (self : OpenGLWidget) (e : Event) :
  phi_in_range self -> phi_in_range (handle self e).
Proof.
  unfold phi_in_range. intros H.
  destruct e as [p|p b| |d]; simpl; try exact H.
  destruct (phi_mouseMoveEvent self p b) as [-> | [v ->]]; [exact H|].
  pose proof (max_min_in_range 1.0 179.0 v). lra.
Qed.

Lemma handle_zoom_in_range (self : OpenGLWidget) (e : Event) :
  zoom_in_range self -> zoom_in_range (handle self e).
Proof.
  unfold zoom_in_range. intros H.
  destruct e as [p|p b| |d]; simpl; try exact H.
  - rewrite zoom_mouseMoveEvent. exact H.
  - pose proof (max_min_in_range 2.0 20.0 (zoom self - IZR d * 0.01)). lra.
Qed.

(** An invariant of [handle] holds after every event of a sequence. *)
Lemma trace_invariant (P : OpenGLWidget -> Prop) :
  (forall self e, P self -> P (handle self e)) ->
  forall es self, P self -> Forall P (trace self es).
Proof.
  intros Hstep es. induction es as [|e es IH]; intros self H; simpl.
  - constructor.
  - constructor; [|apply IH]; apply Hstep; exact H.
Qed.

Lemma init_phi_in_range : phi_in_range init.
Proof. unfold phi_in_range, init; simpl. lra. Qed.

Lemma init_zoom_in_range : zoom_in_range init.
Proof. unfold zoom_in_range, init; simpl. lra. Qed.

(** C1.  From the initial widget ([phi = 45]), [phi] lies in [[1, 179]] after
    every event of every event sequence; in particular after every call of
    every sequence of primary-button drags that follows a press at any
    anchor. *)
Theorem phi_stays_in_range :
  (forall es : list Event, Forall phi_in_range (trace init es)) /\
  (forall (anchor : QPointF) (positions : list QPointF),
     Forall phi_in_range
       (trace (mousePressEvent init anchor) (map drag_primary positions))).
Proof.
  split.
  - intros es. apply trace_invariant.
    + exact handle_phi_in_range.
    + exact init_phi_in_range.
  - intros anchor positions. apply trace_invariant.
    + exact handle_phi_in_range.
    + exact init_phi_in_range.
Qed.

(** C2.  From the initial widget ([zoom = 5.0]), the camera distance lies in
    [[2, 20]] after every event of every event sequence; in particular after
    every call of every sequence of wheel events. *)
Theorem zoom_stays_in_range :
  (forall es : list Event, Forall zoom_in_range (trace init es)) /\
  (forall deltas : list Z, Forall zoom_in_range (trace init (map Wheel deltas))).
Proof.
  split; intros; apply trace_invariant;
    auto using handle_zoom_in_range, init_zoom_in_range.
Qed.

(** C3.  [wheelEvent] sets the camera distance to the clamp of
    [zoom - delta * 0.01] to [[2, 20]]; from distance 5, a delta of -100
    gives 6 and a delta of 10000 gives 2. *)
Theorem wheelEvent_clamps (self : OpenGLWidget) (delta : Z) :
  zoom (wheelEvent self delta) = clamp (zoom self - IZR delta * 0.01) 2 20 /\
  (zoom self = 5 ->
   zoom (wheelEvent self (-100)) = 6 /\ zoom (wheelEvent self 10000) = 2).
Proof.
  split.
  - unfold wheelEvent; simpl.
    rewrite (max_min_is_clamp 2.0 20.0) by lra.
    set (v := zoom self - IZR delta * 0.01). unfold clamp.
    destruct (Rlt_dec v 2.0), (Rlt_dec 20.0 v), (Rlt_dec v 2), (Rlt_dec 20 v);
      lra.
  - intros H5. unfold wheelEvent; simpl. rewrite H5.
    unfold Py.max, Py.min. split; py_cases; lra.
Qed.

Lemma wheelEvent_clamps_witness :
  zoom init = 5 /\
  zoom (wheelEvent init 7) = clamp (zoom init - IZR 7 * 0.01) 2 20 /\
  zoom (wheelEvent init (-100)) = 6 /\ zoom (wheelEvent init 10000) = 2.
Proof.
  assert (H : zoom init = 5) by (simpl; lra).
  split; [exact H|].
  destruct (wheelEvent_clamps init 7) as [Hc Hs].
  split; [exact Hc|]. exact (Hs H).
Defined.

(** C4.  A move while no anchor is set changes no field of the widget: when
    no press has happened since the widget was built, and when a release has
    cleared the anchor of an earlier press. *)
Theorem move_without_anchor_is_noop (self : OpenGLWidget) (p : QPointF)
    (buttons : Z) :
  (last_mouse_pos self = None -> mouseMoveEvent self p buttons = self) /\
  mouseMoveEvent init p buttons = init /\
  (forall p0 : QPointF,
     mouseMoveEvent (mouseReleaseEvent (mousePressEvent self p0)) p buttons
     = mouseReleaseEvent (mousePressEvent self p0)).
Proof.
  split; [|split].
  - intros H. unfold mouseMoveEvent. rewrite H. reflexivity.
  - reflexivity.
  - intros p0. reflexivity.
Qed.

Lemma move_without_anchor_is_noop_witness :
  last_mouse_pos init = None /\
  mouseMoveEvent init (mkQPointF 10 0) Qt_LeftButton = init.
Proof.
  split; [reflexivity|].
  apply (proj1 (move_without_anchor_is_noop init (mkQPointF 10 0) Qt_LeftButton)).
  reflexivity.
Defined.

(** C10.  [wheelEvent] changes the camera distance only: the two angles, the
    pan offset, the drag anchor and the hovered face are the ones before the
    call. *)
Theorem wheelEvent_frame (self : OpenGLWidget) (delta : Z) :
  theta (wheelEvent self delta) = theta self /\
  phi (wheelEvent self delta) = phi self /\
  pan_offset (wheelEvent self delta) = pan_offset self /\
  last_mouse_pos (wheelEvent self delta) = last_mouse_pos self /\
  hovered_face (wheelEvent self delta) = hovered_face self.
Proof. unfold wheelEvent. simpl. repeat split. Qed.

(** ** The guard of [mouseMoveEvent] *)

Lemma QPointF_bool_false (p : QPointF) :
  QPointF_bool p = false <-> x p = 0 /\ y p = 0.
Proof.
  unfold QPointF_bool, QPointF_isNull.
  destruct (Req_dec_T (x p) 0), (Req_dec_T (y p) 0); simpl;
    split; intros H; try discriminate; tauto.
Qed.


(** A primary-button move from a true anchor: the orbit update, then the
    anchor moves to the pointer. *)
Lemma mouseMoveEvent_left (self : OpenGLWidget) (anchor p : QPointF) :
  last_mouse_pos self = Some anchor ->
  QPointF_bool anchor = true ->
  mouseMoveEvent self p Qt_LeftButton =
  mkWidget (Some p)
           (theta self - (x p - x anchor) * 0.5)
           (Py.max 1.0 (Py.min 179.0 (phi self - (y p - y anchor) * 0.5)))
           (zoom self) (pan_offset self) (hovered_face self).
Proof.
  intros Ha Hb. unfold mouseMoveEvent. rewrite Ha, Hb. reflexivity.
Qed.

(** A move from the anchor (0, 0) changes nothing, whatever the buttons. *)
Lemma mouseMoveEvent_null_anchor (self : OpenGLWidget) (anchor p : QPointF)
    (buttons : Z) :
  last_mouse_pos self = Some anchor ->
  QPointF_bool anchor = false ->
  mouseMoveEvent self p buttons = self.
Proof.
  intros Ha Hb. unfold mouseMoveEvent. rewrite Ha, Hb. reflexivity.
Qed.

(** The scenario of C5 with the press anywhere but at (0, 0): ten units to
    the right with the primary button take [theta] from 45 to 40 and leave
    [phi] at 45. *)
Lemma drag_ten_right (anchor : QPointF) :
  QPointF_bool anchor = true ->
  let self :=
    mouseMoveEvent (mousePressEvent init anchor)
                   (QPointF_add anchor (mkQPointF 10 0)) Qt_LeftButton in
  theta self = 40 /\ phi self = 45.
Proof.
  intros Hb self. subst self.
  rewrite (mouseMoveEvent_left _ anchor) by (auto; reflexivity).
  simpl. split; [lra|].
  replace (45.0 - (y anchor + 0 - y anchor) * 0.5) with 45 by lra.
  unfold Py.max, Py.min. py_cases; lra.
Qed.

(** C5.  After a press at (0, 0) and a primary-button move to (10, 0) from
    the initial widget, [theta] is still 45, not 40: the anchor (0, 0) is a
    false value, so the move is skipped and the anchor stays where it is. *)
Theorem drag_from_origin_is_skipped :
  let self :=
    mouseMoveEvent (mousePressEvent init (mkQPointF 0 0))
                   (mkQPointF 10 0) Qt_LeftButton in
  self = mousePressEvent init (mkQPointF 0 0) /\
  theta self = 45 /\ phi self = 45 /\ theta self <> 40.
Proof.
  assert (H : mouseMoveEvent (mousePressEvent init (mkQPointF 0 0))
                (mkQPointF 10 0) Qt_LeftButton
              = mousePressEvent init (mkQPointF 0 0)).
  { apply (mouseMoveEvent_null_anchor _ (mkQPointF 0 0)); [reflexivity|].
    apply QPointF_bool_false. simpl. split; reflexivity. }
  simpl. rewrite H. simpl. repeat split; lra.
Qed.

(** ** Two drags against one *)

Module TwoDrags.

Import Floats.


End TwoDrags.

(** ** The projection *)

(** C7.  The aspect ratio of [resizeGL] is [1.0] when the height is zero and
    [w / h] otherwise, so the division never raises and the frustum is always
    built from it; a width of zero gives the ratio [0 / h], not the
    fallback. *)
Theorem aspect_ratio_never_divides_by_zero (w h : Z) :
  aspect_ratio w h = Some (if (h =? 0)%Z then 1 else IZR w / IZR h) /\
  aspect_ratio w 0 = Some 1 /\
  aspect_ratio 0 h = Some (if (h =? 0)%Z then 1 else 0) /\
  exists a : R,
    aspect_ratio w h = Some a /\
    resizeGL w h =
    Some [ glViewport 0 0 w h;
           glMatrixMode GL_PROJECTION;
           glLoadIdentity;
           glFrustum (- a) a (- 1.0) 1.0 1.0 50.0;
           glMatrixMode GL_MODELVIEW ].
Proof.
  assert (H : forall w', aspect_ratio w' h
              = Some (if (h =? 0)%Z then 1 else IZR w' / IZR h)).
  { intros w'. unfold aspect_ratio, Py.truediv.
    destruct (h =? 0)%Z; simpl; f_equal; lra. }
  split; [apply H|]. split; [|split].
  - unfold aspect_ratio. simpl. f_equal. lra.
  - rewrite H. destruct (h =? 0)%Z; f_equal. lra.
  - eexists. split; [apply H|]. unfold resizeGL. rewrite H. reflexivity.
Qed.

(** ** The pan basis *)

Lemma eyePosition_is_lookAt_eye (self : OpenGLWidget) :
  eyePosition self = vec3_add (eye self) (target self).
Proof.
  unfold eyePosition, eye, vec3_add, vec3_scale; simpl. f_equal; ring.
Qed.

Lemma paintGL_looks_from_eyePosition (self : OpenGLWidget) :
  In (gluLookAt (eyePosition self) (target self) (mkvec3 0 0 1))
     (paintGL_camera self).
Proof.
  rewrite eyePosition_is_lookAt_eye. unfold paintGL_camera. simpl. auto.
Qed.

(** The distance from the eye to the target is the camera distance. *)
Lemma norm_target_minus_eye (self : OpenGLWidget) :
  0 <= zoom self ->
  norm (vec3_sub (target self) (eyePosition self)) = zoom self.
Proof.
  intros Hz. rewrite eyePosition_is_lookAt_eye.
  unfold norm, vec3_sub, vec3_add, eye, target; simpl.
  set (z := zoom self) in *.
  set (s := sin (np_radians (phi self))).
  set (c := cos (np_radians (phi self))).
  set (s' := sin (np_radians (theta self))).
  set (c' := cos (np_radians (theta self))).
  assert (H1 : s * s + c * c = 1) by apply sin2_cos2.
  assert (H2 : s' * s' + c' * c' = 1) by apply sin2_cos2.
  match goal with |- sqrt ?e = _ =>
    replace e with (z * z * (s * s * (s' * s' + c' * c') + c * c)) by ring
  end.
  rewrite H2, Rmult_1_r, H1, Rmult_1_r.
  apply sqrt_square. exact Hz.
Qed.

(** The unit direction from the eye toward the target is [forward] with the
    sign of its third component changed. *)
Lemma unit_direction_eye_target (self : OpenGLWidget) :
  0 < zoom self ->
  unit_direction (eyePosition self) (target self) =
  mkvec3 (v0 (forward self)) (v1 (forward self)) (- v2 (forward self)).
Proof.
  intros Hz. unfold unit_direction.
  rewrite norm_target_minus_eye by lra.
  rewrite eyePosition_is_lookAt_eye.
  unfold vec3_sub, vec3_add, eye, target, forward; simpl.
  f_equal; field; lra.
Qed.

Lemma radians_45 : np_radians 45.0 = PI / 4.
Proof. unfold np_radians. lra. Qed.

Lemma cos_radians_45_pos : 0 < cos (np_radians 45.0).
Proof.
  rewrite radians_45. apply cos_gt_0; pose proof PI_RGT_0; lra.
Qed.

(** C8.  In the initial widget ([theta = phi = 45], distance 5) the third
    component of [forward] is [cos 45 > 0], while the unit direction from the
    eye toward the target has the third component [- cos 45 < 0]: [forward]
    is not that direction. *)
Theorem forward_is_not_toward_target :
  0 < v2 (forward init) /\
  v2 (unit_direction (eyePosition init) (target init)) = - v2 (forward init) /\
  forward init <> unit_direction (eyePosition init) (target init).
Proof.
  assert (Hpos : 0 < v2 (forward init)) by exact cos_radians_45_pos.
  assert (Hdir : unit_direction (eyePosition init) (target init) =
                 mkvec3 (v0 (forward init)) (v1 (forward init))
                        (- v2 (forward init))).
  { apply unit_direction_eye_target. simpl. lra. }
  split; [exact Hpos|]. split.
  - rewrite Hdir. reflexivity.
  - intros Heq. rewrite Hdir in Heq.
    apply (f_equal v2) in Heq.
    change (v2 (forward init) = - v2 (forward init)) in Heq. lra.
Qed.

(** ** The grid *)

Lemma in_range (a b i : Z) : In i (Py.range a b) <-> (a <= i < b)%Z.
Proof.
  unfold Py.range. rewrite in_map_iff. split.
  - intros [k [<- Hk]]. apply in_seq in Hk. lia.
  - intros H. exists (Z.to_nat (i - a)). split; [lia|].
    apply in_seq. lia.
Qed.

(** The vertices of [draw_grid] are those of the loop body, for the loop
    indices from [-size] to [size]. *)
Lemma in_draw_grid_vertex (size : Z) (step vx vy vz : R) :
  In (glVertex3f vx vy vz) (draw_grid size step) <->
  exists i : Z,
    (- size <= i <= size)%Z /\
    In (glVertex3f vx vy vz) (grid_lines size step i).
Proof.
  unfold draw_grid. split.
  - intros H. simpl in H. destruct H as [H|[H|H]]; try discriminate.
    apply in_app_or in H. destruct H as [H|H].
    + apply in_flat_map in H. destruct H as [i [Hi Hv]].
      apply in_range in Hi. exists i. split; [lia|exact Hv].
    + simpl in H. destruct H as [H|[]]. discriminate.
  - intros [i [Hi Hv]]. simpl. right. right. apply in_or_app. left.
    apply in_flat_map. exists i. split; [|exact Hv].
    apply in_range. lia.
Qed.

(** Whatever the size and the step, every vertex of the grid has its second
    coordinate at zero. *)
Lemma draw_grid_y_zero (size : Z) (step vx vy vz : R) :
  In (glVertex3f vx vy vz) (draw_grid size step) -> vy = 0.
Proof.
  intros H. apply in_draw_grid_vertex in H. destruct H as [i [_ H]].
  simpl in H.
  destruct H as [H|[H|[H|[H|[]]]]]; injection H as _ Hy _; lra.
Qed.






(** ** The same on binary64 floats *)

Module Binary64Facts.

Import Floats Binary64.
Local Open Scope float_scope.

Lemma float_ltb_leb (a b : float) :
  PrimFloat.ltb a b = true -> PrimFloat.leb a b = true.
Proof.
  rewrite FloatAxioms.ltb_spec, FloatAxioms.leb_spec.
  unfold SFltb, SFleb.
  destruct (SFcompare (Prim2SF a) (Prim2SF b)) as [[ | | ]|];
    intros H; try discriminate; reflexivity.
Qed.

(** [max(lo, min(hi, v))] lies between [lo] and [hi] for every float [v],
    NaN and the infinities included. *)
Lemma float_max_min_between (lo hi v : float) :
  PrimFloat.leb lo lo = true ->
  PrimFloat.leb hi hi = true ->
  PrimFloat.leb lo hi = true ->
  between lo hi (max lo (min hi v)) = true.
Proof.
  intros Hlo Hhi Hle. unfold between, max, min.
  destruct (PrimFloat.ltb v hi) eqn:E1.
  - destruct (PrimFloat.ltb lo v) eqn:E2.
    + rewrite (float_ltb_leb _ _ E1), (float_ltb_leb _ _ E2). reflexivity.
    + rewrite Hlo, Hle. reflexivity.
  - destruct (PrimFloat.ltb lo hi) eqn:E2.
    + rewrite Hle, Hhi. reflexivity.
    + rewrite Hlo, Hle. reflexivity.
Qed.

(** After [wheelEvent] the distance is in [[2, 20]], whatever it was. *)
Lemma float_wheelEvent_zoom (self : OpenGLWidget) (delta : Z) :
  between 2 20 (zoom (wheelEvent self delta)) = true.
Proof. apply float_max_min_between; reflexivity. Qed.

(** A move keeps [phi] in [[1, 179]], for every pointer position. *)
Lemma float_mouseMoveEvent_phi (self : OpenGLWidget) (p : QPointF)
    (left : bool) :
  between 1 179 (phi self) = true ->
  between 1 179 (phi (mouseMoveEvent_nopan self p left)) = true.
Proof.
  intros H. unfold mouseMoveEvent_nopan.
  destruct (last_mouse_pos self) as [a|]; [|exact H].
  destruct (QPointF_bool a); [|exact H].
  destruct left; [|exact H].
  apply float_max_min_between; reflexivity.
Qed.

(** The scenarios, evaluated. *)

Example float_zoom_minus_100 : zoom (wheelEvent init (-100)) = 6.
Proof. vm_compute. reflexivity. Qed.

Example float_zoom_10000 : zoom (wheelEvent init 10000) = 2.
Proof. vm_compute. reflexivity. Qed.

Example float_drag_from_origin :
  mouseMoveEvent_nopan (mousePressEvent init (mkQPointF 0 0))
                       (mkQPointF 10 0) true
  = mousePressEvent init (mkQPointF 0 0).
Proof. vm_compute. reflexivity. Qed.

Example float_drag_from_1_0 :
  let self := mouseMoveEvent_nopan (mousePressEvent init (mkQPointF 1 0))
                                   (mkQPointF 11 0) true in
  theta self = 40 /\ phi self = 45.
Proof. vm_compute. split; reflexivity. Qed.

Example float_two_drags_against_one :
  let self := mousePressEvent init (mkQPointF 1 1) in
  phi (mouseMoveEvent_nopan
         (mouseMoveEvent_nopan self (mkQPointF 1 201) true)
         (mkQPointF 1 1) true) = 101 /\
  phi (mouseMoveEvent_nopan self (mkQPointF 1 1) true) = 45.
Proof. vm_compute. split; reflexivity. Qed.

End Binary64Facts.

(** * Further properties of the handlers *)

(** ** Sequences of moves *)

(** X1.  Once the anchor is the point (0, 0), moves do nothing: after every
    move of every sequence of moves, whatever the positions and the buttons,
    the widget is the one before the sequence. *)
Theorem null_anchor_freezes_moves (self : OpenGLWidget) (anchor : QPointF)
    (moves : list (QPointF * Z)) :
  last_mouse_pos self = Some anchor ->
  QPointF_bool anchor = false ->
  Forall (fun self' => self' = self)
         (trace self (map (fun m => Move (fst m) (snd m)) moves)).
Proof.
  intros Ha Hb. induction moves as [|[p b] moves IH]; simpl.
  - constructor.
  - rewrite (mouseMoveEvent_null_anchor self anchor p b Ha Hb).
    constructor; [reflexivity|exact IH].
Qed.

Lemma null_anchor_freezes_moves_witness :
  Forall (fun self' => self' = mousePressEvent init (mkQPointF 0 0))
         (trace (mousePressEvent init (mkQPointF 0 0))
                (map (fun m => Move (fst m) (snd m))
                     [ (mkQPointF 10 0, Qt_LeftButton);
                       (mkQPointF 10 30, Qt_RightButton) ])).
Proof.
  apply (null_anchor_freezes_moves _ (mkQPointF 0 0)).
  - reflexivity.
  - apply QPointF_bool_false. simpl. split; reflexivity.
Defined.

(** X3.  Zooming and dragging do not interfere: a wheel event and a move,
    with any buttons, give the same widget in either order. *)
Theorem wheel_and_move_commute (self : OpenGLWidget) (delta : Z)
    (p : QPointF) (buttons : Z) :
  wheelEvent (mouseMoveEvent self p buttons) delta =
  mouseMoveEvent (wheelEvent self delta) p buttons.
Proof.
  unfold mouseMoveEvent. simpl.
  destruct (last_mouse_pos self) as [a|] eqn:Ha; [|reflexivity].
  destruct (QPointF_bool a); [|reflexivity].
  destruct (buttons =? Qt_LeftButton)%Z; [reflexivity|].
  destruct (buttons =? Qt_RightButton)%Z; reflexivity.
Qed.

Lemma widget_eq (s : OpenGLWidget) (a : option QPointF) (t p z : R)
    (o : vec3) (h : option Z) :
  a = last_mouse_pos s -> t = theta s -> p = phi s -> z = zoom s ->
  o = pan_offset s -> h = hovered_face s ->
  mkWidget a t p z o h = s.
Proof. intros -> -> -> -> -> ->. destruct s; reflexivity. Qed.

Lemma vec3_eq (v : vec3) (a b c : R) :
  a = v0 v -> b = v1 v -> c = v2 v -> mkvec3 a b c = v.
Proof. intros -> -> ->. destruct v; reflexivity. Qed.

(** X4.  A move to the position of the anchor changes no field, with the
    left button, the right button or any other, as long as [phi] is within
    [[1, 179]]. *)
Theorem move_to_anchor_is_noop (self : OpenGLWidget) (anchor : QPointF)
    (buttons : Z) :
  last_mouse_pos self = Some anchor ->
  1 <= phi self <= 179 ->
  mouseMoveEvent self anchor buttons = self.
Proof.
  intros Ha Hphi. unfold mouseMoveEvent. rewrite Ha.
  destruct (QPointF_bool anchor); [|reflexivity].
  destruct (buttons =? Qt_LeftButton)%Z;
    [|destruct (buttons =? Qt_RightButton)%Z].
  - apply widget_eq; simpl; auto; [lra|].
    replace (phi self - (y anchor - y anchor) * 0.5) with (phi self) by lra.
    unfold Py.max, Py.min. py_cases; lra.
  - apply widget_eq; simpl; auto.
    apply vec3_eq; simpl; ring.
  - apply widget_eq; simpl; auto.
Qed.

Lemma move_to_anchor_is_noop_witness :
  mouseMoveEvent (mousePressEvent init (mkQPointF 3 4)) (mkQPointF 3 4)
                 Qt_RightButton
  = mousePressEvent init (mkQPointF 3 4).
Proof.
  apply move_to_anchor_is_noop.
  - reflexivity.
  - simpl. lra.
Defined.

(** ** The wheel *)

(** X5.  From a distance within [[2, 20]], a wheel delta of 1800 or more
    ends at the distance 2, a delta of -1800 or less ends at 20, and a
    delta of 0 changes nothing. *)
Theorem wheelEvent_saturates (self : OpenGLWidget) (delta : Z) :
  2 <= zoom self <= 20 ->
  ((1800 <= delta)%Z -> zoom (wheelEvent self delta) = 2) /\
  ((delta <= -1800)%Z -> zoom (wheelEvent self delta) = 20) /\
  wheelEvent self 0 = self.
Proof.
  intros Hz. split; [|split].
  - intros Hd. apply IZR_le in Hd. simpl.
    unfold Py.max, Py.min. py_cases; lra.
  - intros Hd. apply IZR_le in Hd. simpl.
    unfold Py.max, Py.min. py_cases; lra.
  - apply widget_eq; simpl; auto.
    unfold Py.max, Py.min. py_cases; lra.
Qed.

Lemma wheelEvent_saturates_witness :
  zoom (wheelEvent init 2000) = 2 /\
  zoom (wheelEvent init (-2000)) = 20 /\
  wheelEvent init 0 = init.
Proof.
  assert (Hz : 2 <= zoom init <= 20) by (simpl; lra).
  destruct (wheelEvent_saturates init 2000 Hz) as [H1 [_ H3]].
  destruct (wheelEvent_saturates init (-2000) Hz) as [_ [H2 _]].
  split; [apply H1; lia|]. split; [apply H2; lia|exact H3].
Defined.

(** X7.  The distance after a wheel event never grows with the delta: a
    larger delta gives a distance that is smaller or the same. *)
Theorem wheelEvent_monotone (self : OpenGLWidget) (d1 d2 : Z) :
  (d1 <= d2)%Z ->
  zoom (wheelEvent self d2) <= zoom (wheelEvent self d1).
Proof.
  intros H. apply IZR_le in H. simpl.
  unfold Py.max, Py.min. py_cases; lra.
Qed.

Lemma wheelEvent_monotone_witness :
  zoom (wheelEvent init 120) <= zoom (wheelEvent init (-120)).
Proof.
  apply wheelEvent_monotone. lia.
Defined.

(** ** The pan branch *)

Lemma sin2_cos2_radians (d : R) :
  sin (np_radians d) * sin (np_radians d)
  + cos (np_radians d) * cos (np_radians d) = 1.
Proof. apply sin2_cos2. Qed.

(** Turns the goal into a polynomial identity in the sines and cosines of
    the two angles, with the two Pythagorean identities at hand. *)
Ltac trig_setup self :=
  pose proof (sin2_cos2_radians (phi self)) as H1;
  pose proof (sin2_cos2_radians (theta self)) as H2;
  unfold dot, up, np_cross, right, forward; simpl;
  replace 0.0 with 0 by lra;
  set (s := sin (np_radians (phi self))) in *;
  set (c := cos (np_radians (phi self))) in *;
  set (s' := sin (np_radians (theta self))) in *;
  set (c' := cos (np_radians (theta self))) in *.

Lemma forward_is_unit (self : OpenGLWidget) :
  dot (forward self) (forward self) = 1.
Proof.
  trig_setup self.
  replace (- s * c' * (- s * c') + - s * s' * (- s * s') + c * c)
    with (s * s * (s' * s' + c' * c') + c * c) by ring.
  rewrite H2. lra.
Qed.

Lemma right_is_unit (self : OpenGLWidget) :
  dot (right self) (right self) = 1.
Proof. trig_setup self. lra. Qed.

Lemma up_is_unit (self : OpenGLWidget) : dot (up self) (up self) = 1.
Proof.
  trig_setup self.
  match goal with |- ?e = 1 =>
    replace e with (c * c * (s' * s' + c' * c')
                    + s * s * (s' * s' + c' * c') * (s' * s' + c' * c'))
      by ring
  end.
  rewrite H2. lra.
Qed.

Lemma right_orthogonal_forward (self : OpenGLWidget) :
  dot (right self) (forward self) = 0.
Proof. trig_setup self. ring. Qed.

Lemma up_orthogonal_right (self : OpenGLWidget) :
  dot (up self) (right self) = 0.
Proof. trig_setup self. ring. Qed.

Lemma up_orthogonal_forward (self : OpenGLWidget) :
  dot (up self) (forward self) = 0.
Proof. trig_setup self. ring. Qed.

(** X8.  For all angles, [forward], [right] and [up] of the pan branch are
    three unit vectors, each orthogonal to the other two. *)
Theorem pan_basis_is_orthonormal (self : OpenGLWidget) :
  dot (forward self) (forward self) = 1 /\
  dot (right self) (right self) = 1 /\
  dot (up self) (up self) = 1 /\
  dot (right self) (forward self) = 0 /\
  dot (up self) (right self) = 0 /\
  dot (up self) (forward self) = 0.
Proof.
  split; [apply forward_is_unit|].
  split; [apply right_is_unit|].
  split; [apply up_is_unit|].
  split; [apply right_orthogonal_forward|].
  split; [apply up_orthogonal_right|apply up_orthogonal_forward].
Qed.

(** The displacement of the target in the pan branch. *)
Lemma pan_displacement (self : OpenGLWidget) (delta : QPointF) :
  vec3_sub (pan_offset (pan self delta)) (pan_offset self) =
  vec3_add (vec3_scale (right self) (x delta * 0.01))
           (vec3_scale (up self) (- y delta * 0.01)).
Proof.
  unfold pan, vec3_sub, vec3_add, vec3_scale; simpl. f_equal; ring.
Qed.

(** X9.  The pan branch moves the target by 0.01 times the length of the
    pointer displacement, in a direction orthogonal to [forward], and leaves
    the angles and the distance as they are. *)
Theorem pan_moves_target_in_proportion (self : OpenGLWidget)
    (delta : QPointF) :
  norm (vec3_sub (pan_offset (pan self delta)) (pan_offset self))
  = 0.01 * QPointF_length delta /\
  dot (vec3_sub (pan_offset (pan self delta)) (pan_offset self))
      (forward self) = 0 /\
  theta (pan self delta) = theta self /\
  phi (pan self delta) = phi self /\
  zoom (pan self delta) = zoom self.
Proof.
  pose proof (right_is_unit self) as Hrr.
  pose proof (up_is_unit self) as Huu.
  pose proof (right_orthogonal_forward self) as Hrf.
  pose proof (up_orthogonal_right self) as Hur.
  pose proof (up_orthogonal_forward self) as Huf.
  rewrite pan_displacement.
  set (r := right self) in *. set (u := up self) in *.
  set (f := forward self) in *.
  set (a := x delta * 0.01). set (b := - y delta * 0.01).
  split; [|split; [|repeat split]].
  - unfold norm, QPointF_length.
    match goal with |- sqrt ?e = _ =>
      replace e with (a * a * dot r r + b * b * dot u u
                      + 2 * a * b * dot u r)
        by (unfold dot, vec3_add, vec3_scale; simpl; ring)
    end.
    rewrite Hrr, Huu, Hur.
    replace (a * a * 1 + b * b * 1 + 2 * a * b * 0)
      with (0.01 * 0.01 * (x delta * x delta + y delta * y delta))
      by (unfold a, b; ring).
    rewrite sqrt_mult_alt by lra.
    rewrite sqrt_square by lra. reflexivity.
  - replace (dot (vec3_add (vec3_scale r a) (vec3_scale u b)) f)
      with (a * dot r f + b * dot u f)
      by (unfold dot, vec3_add, vec3_scale; simpl; ring).
    rewrite Hrf, Huf. ring.
Qed.

(** ** The view *)

Lemma sin_radians_pos (d : R) : 1 <= d <= 179 -> 0 < sin (np_radians d).
Proof.
  intros H. pose proof PI_RGT_0 as Hpi. unfold np_radians.
  apply sin_gt_0; nra.
Qed.

Lemma lookAt_well_posed_in_range (self : OpenGLWidget) :
  phi_in_range self -> zoom_in_range self -> lookAt_well_posed self.
Proof.
  unfold phi_in_range, zoom_in_range. intros Hphi Hz e t u Hin.
  unfold paintGL_camera in Hin. simpl in Hin.
  destruct Hin as [H|[H|[H|[]]]]; try discriminate.
  injection H as <- <- <-.
  rewrite <- eyePosition_is_lookAt_eye.
  rewrite norm_target_minus_eye by lra.
  split; [lra|].
  rewrite eyePosition_is_lookAt_eye.
  intros Hc.
  pose proof (sin_radians_pos (phi self) Hphi) as Hs.
  pose proof (sin2_cos2_radians (theta self)) as H2.
  unfold np_cross, vec3_sub, vec3_add, eye, target in Hc; simpl in Hc.
  injection Hc as Hc0 Hc1 _.
  set (z := zoom self) in *.
  set (s := sin (np_radians (phi self))) in *.
  set (s' := sin (np_radians (theta self))) in *.
  set (c' := cos (np_radians (theta self))) in *.
  assert (Hzs : 0 < z * s) by (apply Rmult_lt_0_compat; lra).
  assert (Hy : z * s * s' = 0) by lra.
  assert (Hx : z * s * c' = 0) by lra.
  assert (Hs' : s' = 0).
  { apply Rmult_integral in Hy. destruct Hy; lra. }
  assert (Hc' : c' = 0).
  { apply Rmult_integral in Hx. destruct Hx; lra. }
  rewrite Hs', Hc' in H2. lra.
Qed.

(** X11.  In the initial widget and after every event of every event
    sequence, the [gluLookAt] of [paintGL] is well posed: the eye is at the
    camera distance from the centre, between 2 and 20, and the line of sight
    is not parallel to the up vector (0, 0, 1). *)
Theorem lookAt_always_well_posed :
  lookAt_well_posed init /\
  forall es : list Event, Forall lookAt_well_posed (trace init es).
Proof.
  split.
  - apply lookAt_well_posed_in_range;
      [exact init_phi_in_range | exact init_zoom_in_range].
  - intros es.
    apply Forall_impl
      with (P := fun self => phi_in_range self /\ zoom_in_range self).
    + intros self [H1 H2]. apply lookAt_well_posed_in_range; assumption.
    + apply trace_invariant.
      * intros self e [H1 H2]. split;
          [apply handle_phi_in_range | apply handle_zoom_in_range];
          assumption.
      * split; [exact init_phi_in_range | exact init_zoom_in_range].
Qed.

(** X12.  For a positive width and a height that is not negative, the
    frustum of [resizeGL] is a proper one: left < right, bottom < top and
    0 < near < far, with left = - right.  For the width 0 and a height that
    is not 0 it is flat: left = right = 0. *)
Theorem resizeGL_frustum (w h : Z) :
  ((0 < w)%Z -> (0 <= h)%Z ->
   exists calls : list GLcall,
     resizeGL w h = Some calls /\
     forall l r b t n f : R,
       In (glFrustum l r b t n f) calls ->
       l = - r /\ l < r /\ b < t /\ 0 < n < f) /\
  (h <> 0%Z ->
   exists calls : list GLcall,
     resizeGL 0 h = Some calls /\
     forall l r b t n f : R,
       In (glFrustum l r b t n f) calls -> l = 0 /\ r = 0).
Proof.
  split.
  - intros Hw Hh. unfold resizeGL, aspect_ratio, Py.truediv.
    destruct (h =? 0)%Z eqn:E; simpl.
    + eexists. split; [reflexivity|].
      intros l r b t n f Hin. simpl in Hin.
      destruct Hin as [H|[H|[H|[H|[H|[]]]]]]; try discriminate.
      injection H as <- <- <- <- <- <-. repeat split; lra.
    + eexists. split; [reflexivity|].
      intros l r b t n f Hin. simpl in Hin.
      destruct Hin as [H|[H|[H|[H|[H|[]]]]]]; try discriminate.
      injection H as <- <- <- <- <- <-.
      apply Z.eqb_neq in E.
      assert (Hpos : 0 < IZR w / IZR h).
      { apply Rdiv_lt_0_compat; apply IZR_lt; lia. }
      repeat split; lra.
  - intros Hh. unfold resizeGL, aspect_ratio, Py.truediv.
    apply Z.eqb_neq in Hh. rewrite Hh. simpl.
    eexists. split; [reflexivity|].
    intros l r b t n f Hin. simpl in Hin.
    destruct Hin as [H|[H|[H|[H|[H|[]]]]]]; try discriminate.
    injection H as <- <- <- <- <- <-.
    unfold Rdiv. rewrite Rmult_0_l. split; lra.
Qed.

Lemma resizeGL_frustum_witness :
  (exists calls : list GLcall,
     resizeGL 800 600 = Some calls /\
     forall l r b t n f : R,
       In (glFrustum l r b t n f) calls ->
       l = - r /\ l < r /\ b < t /\ 0 < n < f) /\
  (exists calls : list GLcall,
     resizeGL 0 600 = Some calls /\
     forall l r b t n f : R,
       In (glFrustum l r b t n f) calls -> l = 0 /\ r = 0).
Proof.
  split.
  - apply (proj1 (resizeGL_frustum 800 600)); lia.
  - apply (proj2 (resizeGL_frustum 800 600)); lia.
Defined.

(** ** The scene *)

Lemma length_range (a b : Z) : length (Py.range a b) = Z.to_nat (b - a).
Proof. unfold Py.range. rewrite length_map, length_seq. reflexivity. Qed.

Lemma length_flat_map_grid (size : Z) (step : R) (l : list Z) :
  length (flat_map (grid_lines size step) l) = (4 * length l)%nat.
Proof.
  induction l as [|i l IH]; [reflexivity|].
  simpl. rewrite IH. lia.
Qed.

(** X13.  For every size and step, every vertex of [draw_grid] has its
    second coordinate at 0 and its first and third coordinates at a multiple
    [i * step] with [-size <= i <= size]; the grid has four vertices for
    each of the [2 * size + 1] indices, and none when the size is
    negative. *)
Theorem draw_grid_any_size (size : Z) (step : R) :
  (forall vx vy vz : R,
     In (glVertex3f vx vy vz) (draw_grid size step) ->
     vy = 0 /\
     exists i j : Z,
       (- size <= i <= size)%Z /\ (- size <= j <= size)%Z /\
       vx = IZR i * step /\ vz = IZR j * step) /\
  Z.of_nat (length (draw_grid size step)) = (3 + 4 * Z.max 0 (2 * size + 1))%Z /\
  ((size < 0)%Z ->
   draw_grid size step = [ glColor3f 0.5 0.5 0.5; glBegin GL_LINES; glEnd ]).
Proof.
  split; [|split].
  - intros vx vy vz H. split; [exact (draw_grid_y_zero _ _ _ _ _ H)|].
    apply in_draw_grid_vertex in H. destruct H as [i [Hi H]].
    simpl in H.
    destruct H as [H|[H|[H|[H|[]]]]]; injection H as Hx _ Hz.
    + exists i, (- size)%Z. repeat split; try lia; auto.
    + exists i, size. repeat split; try lia; auto.
    + exists (- size)%Z, i. repeat split; try lia; auto.
    + exists size, i. repeat split; try lia; auto.
  - unfold draw_grid.
    rewrite !length_app, length_flat_map_grid, length_range. simpl length.
    lia.
  - intros Hneg. unfold draw_grid, Py.range.
    replace (Z.to_nat (size + 1 - - size)) with 0%nat by lia.
    reflexivity.
Qed.

Lemma draw_grid_any_size_witness :
  (0 = 0 /\
   exists i j : Z,
     (- 3 <= i <= 3)%Z /\ (- 3 <= j <= 3)%Z /\
     2 * 0.5 = IZR i * 0.5 /\ 3 * 0.5 = IZR j * 0.5) /\
  draw_grid (-1) 0.5 = [ glColor3f 0.5 0.5 0.5; glBegin GL_LINES; glEnd ].
Proof.
  destruct (draw_grid_any_size 3 0.5) as [Hall _].
  destruct (draw_grid_any_size (-1) 0.5) as [_ [_ Hneg]].
  split; [|apply Hneg; lia].
  apply (Hall (2 * 0.5) 0 (3 * 0.5)).
  apply in_draw_grid_vertex. exists 2%Z. split; [lia|].
  simpl. right. left. f_equal; lra.
Defined.

Lemma well_bracketed_app (l1 l2 : list Call) :
  forall inside : bool,
  well_bracketed inside l1 = true ->
  well_bracketed inside (l1 ++ l2) = well_bracketed false l2.
Proof.
  induction l1 as [|c l1 IH]; intros inside H; simpl in *.
  - destruct inside; [discriminate|reflexivity].
  - destruct c as [[ | | | | | | | | | ]| ];
      destruct inside; simpl in *; try discriminate; auto.
Qed.

Lemma well_bracketed_grid_lines (size : Z) (step : R) (l : list Z)
    (rest : list Call) :
  well_bracketed true (map gl (flat_map (grid_lines size step) l) ++ rest)
  = well_bracketed true rest.
Proof.
  induction l as [|i l IH]; [reflexivity|].
  simpl. exact IH.
Qed.

Lemma well_bracketed_draw_grid (size : Z) (step : R) :
  well_bracketed false (map gl (draw_grid size step)) = true.
Proof.
  unfold draw_grid. simpl. rewrite map_app.
  rewrite well_bracketed_grid_lines. reflexivity.
Qed.

(** What [draw_cube] issues, for every value of [hovered_face]: it raises
    nothing, gives one alpha per face and, between each [glBegin] and its
    [glEnd], the four vertices that the face indexes. *)
Lemma draw_cube_calls (self : OpenGLWidget) :
  exists cube : list Call,
    draw_cube self = Some cube /\
    well_bracketed false cube = true /\
    alphas cube =
      map (fun i => if is_hovered self i then 0.5 else 1.0) (seq 0 6) /\
    primitives [] cube =
      map (map (fun k => nth k vertices (mkvec3 0 0 0))) faces.
Proof.
  eexists. split; [|split; [|split]].
  - unfold draw_cube, enumerate, faces.
    cbn [length seq combine for_each cube_face nth_error face_colors
         cube_vertex vertices app].
    reflexivity.
  - reflexivity.
  - reflexivity.
  - reflexivity.
Qed.

(** X14.  [paintGL] raises nothing, whatever the widget, and its calls
    follow the rule of immediate mode: [glBegin] and [glEnd] alternate,
    every vertex is given between them, and nothing but vertices and
    colours is.  So do the calls of [draw_grid], for every size and
    step. *)
Theorem paintGL_is_well_bracketed (self : OpenGLWidget) :
  (exists calls : list Call,
     paintGL self = Some calls /\ well_bracketed false calls = true) /\
  (forall (size : Z) (step : R),
     well_bracketed false (map gl (draw_grid size step)) = true).
Proof.
  split; [|exact well_bracketed_draw_grid].
  destruct (draw_cube_calls self) as [cube [Hc [Hb _]]].
  unfold paintGL. rewrite Hc. eexists. split; [reflexivity|].
  rewrite (well_bracketed_app (map gl (paintGL_camera self))) by reflexivity.
  rewrite (well_bracketed_app (map gl draw_axes)) by reflexivity.
  rewrite (well_bracketed_app (map gl draw_grid_default))
    by apply well_bracketed_draw_grid.
  exact Hb.
Qed.





(** ** The cube *)



(** Proves that two vertices are the ends of an edge. *)
Ltac edge :=
  unfold adjacent; simpl;
  first [ left; repeat split; lra
        | right; left; repeat split; lra
        | right; right; repeat split; lra ].


(** X17.  The first five quads of [draw_cube] give their vertices in the
    order of the perimeter.  The sixth, the bottom, does not: its first two
    vertices, (-1, -1, -1) and (1, -1, 1), are opposite corners of the
    face. *)
Theorem bottom_quad_is_not_in_perimeter_order (self : OpenGLWidget) :
  exists (cube : list Call) (q0 q1 q2 q3 q4 q5 : list vec3),
    draw_cube self = Some cube /\
    primitives [] cube = [q0; q1; q2; q3; q4; q5] /\
    perimeter_order q0 /\ perimeter_order q1 /\ perimeter_order q2 /\
    perimeter_order q3 /\ perimeter_order q4 /\
    ~ perimeter_order q5 /\
    nth 0 q5 (mkvec3 0 0 0) = mkvec3 (- 1.0) (- 1.0) (- 1.0) /\
    nth 1 q5 (mkvec3 0 0 0) = mkvec3 1.0 (- 1.0) 1.0.
Proof.
  destruct (draw_cube_calls self) as [cube [Hc [_ [_ Hp]]]].
  exists cube. do 6 eexists. split; [exact Hc|].
  split; [rewrite Hp; cbn [map faces nth vertices]; reflexivity|].
  repeat split; try edge.
  intros [H _]. unfold adjacent in H. simpl in H.
  destruct H as [[_ [_ H]]|[[H _]|[H _]]]; lra.
Qed.

(** ** The frame *)



(** ** NaN and the clamps, on binary64 floats *)

Module Binary64Edge.

Import Floats Binary64.
Local Open Scope float_scope.

Lemma is_nan_Prim2SF (v : float) :
  PrimFloat.is_nan v = true -> Prim2SF v = S754_nan.
Proof.
  unfold PrimFloat.is_nan. rewrite FloatAxioms.eqb_spec. unfold SFeqb.
  destruct (Prim2SF v) as [s|s| |s m e]; simpl; try reflexivity.
  - discriminate.
  - destruct s; discriminate.
  - rewrite Z.compare_refl, Pos.compare_cont_refl.
    destruct s; discriminate.
Qed.

Lemma nan_ltb (v a : float) :
  Prim2SF v = S754_nan -> PrimFloat.ltb v a = false.
Proof. intros H. rewrite FloatAxioms.ltb_spec, H. reflexivity. Qed.

Lemma nan_sub_l (a b : float) :
  Prim2SF a = S754_nan -> Prim2SF (a - b) = S754_nan.
Proof. intros H. rewrite FloatAxioms.sub_spec, H. reflexivity. Qed.

Lemma nan_sub_r (a b : float) :
  Prim2SF b = S754_nan -> Prim2SF (a - b) = S754_nan.
Proof.
  intros H. rewrite FloatAxioms.sub_spec, H.
  destruct (Prim2SF a) as [s|s| |s m e]; reflexivity.
Qed.

Lemma nan_mul_l (a b : float) :
  Prim2SF a = S754_nan -> Prim2SF (a * b) = S754_nan.
Proof. intros H. rewrite FloatAxioms.mul_spec, H. reflexivity. Qed.

(** X19.  On binary64 floats [wheelEvent] leaves the distance within
    [[2, 20]] whatever the distance before, the infinities and NaN
    included; a NaN distance becomes 20. *)
Theorem float_wheelEvent_absorbs_nan (self : OpenGLWidget) (delta : Z) :
  between 2 20 (zoom (wheelEvent self delta)) = true /\
  (PrimFloat.is_nan (zoom self) = true -> zoom (wheelEvent self delta) = 20).
Proof.
  split.
  - apply Binary64Facts.float_max_min_between; reflexivity.
  - intros H. apply is_nan_Prim2SF in H. simpl. unfold max, min.
    rewrite (nan_ltb _ 20 (nan_sub_l _ (of_int delta * 0.01) H)).
    reflexivity.
Qed.

Lemma float_wheelEvent_absorbs_nan_witness :
  zoom (wheelEvent (mkWidget None 45 45 nan (0, 0, 0) None) 120) = 20.
Proof.
  apply float_wheelEvent_absorbs_nan. reflexivity.
Defined.

(** X20.  On binary64 floats the orbit branch leaves [phi] within
    [[1, 179]] whatever [phi] and the pointer displacement were; when [phi]
    or the vertical displacement is NaN, [phi] becomes 179. *)
Theorem float_orbit_absorbs_nan (self : OpenGLWidget) (delta : QPointF) :
  between 1 179 (phi (orbit self delta)) = true /\
  (PrimFloat.is_nan (phi self) = true \/ PrimFloat.is_nan (y delta) = true ->
   phi (orbit self delta) = 179).
Proof.
  split.
  - apply Binary64Facts.float_max_min_between; reflexivity.
  - intros H. simpl. unfold max, min.
    assert (Hn : Prim2SF (phi self - y delta * 0.5) = S754_nan).
    { destruct H as [H|H]; apply is_nan_Prim2SF in H.
      - apply nan_sub_l. exact H.
      - apply nan_sub_r. apply nan_mul_l. exact H. }
    rewrite (nan_ltb _ 179 Hn). reflexivity.
Qed.

Lemma float_orbit_absorbs_nan_witness :
  phi (orbit init (mkQPointF 3 nan)) = 179.
Proof.
  apply float_orbit_absorbs_nan. right. reflexivity.
Defined.

End Binary64Edge.

(** * Properties over all event sequences, and the orbit bounds *)

Lemma hovered_face_handle (self : OpenGLWidget) (e : Event) :
  hovered_face (handle self e) = hovered_face self.
Proof.
  destruct e as [p|p b| |d]; simpl; try reflexivity.
  unfold mouseMoveEvent.
  destruct (last_mouse_pos self) as [a|]; [|reflexivity].
  destruct (QPointF_bool a); [|reflexivity].
  destruct (b =? Qt_LeftButton)%Z; [reflexivity|].
  destruct (b =? Qt_RightButton)%Z; reflexivity.
Qed.

(** X21.  No handler writes [hovered_face]: in the initial widget and after
    every event of every event sequence it is [None], and [draw_cube] gives
    the alpha 1.0 to each of the six faces. *)
Theorem no_face_is_ever_dimmed :
  forall es : list Event,
    Forall (fun self =>
              hovered_face self = None /\
              exists cube : list Call,
                draw_cube self = Some cube /\
                alphas cube = [1.0; 1.0; 1.0; 1.0; 1.0; 1.0])
           (init :: trace init es).
Proof.
  intros es.
  assert (Hdraw : forall self, hovered_face self = None ->
            hovered_face self = None /\
            exists cube : list Call,
              draw_cube self = Some cube /\
              alphas cube = [1.0; 1.0; 1.0; 1.0; 1.0; 1.0]).
  { intros self H. split; [exact H|].
    destruct (draw_cube_calls self) as [cube [Hc [_ [Ha _]]]].
    exists cube. split; [exact Hc|]. rewrite Ha.
    unfold is_hovered. rewrite H. reflexivity. }
  constructor; [apply Hdraw; reflexivity|].
  apply Forall_impl with (P := fun self => hovered_face self = None);
    [exact Hdraw|].
  apply trace_invariant; [|reflexivity].
  intros self e H. rewrite hovered_face_handle. exact H.
Qed.

(** X22.  From a [phi] within [[1, 179]], the orbit branch ends at
    [phi = 1] for a vertical pointer displacement of 356 or more and at
    [phi = 179] for one of -356 or less; and a larger vertical displacement
    never gives a larger [phi]. *)
Theorem orbit_saturates (self : OpenGLWidget) (d d' : QPointF) :
  1 <= phi self <= 179 ->
  (356 <= y d -> phi (orbit self d) = 1) /\
  (y d <= -356 -> phi (orbit self d) = 179) /\
  (y d <= y d' -> phi (orbit self d') <= phi (orbit self d)).
Proof.
  intros H. repeat split; intros Hd; simpl;
    unfold Py.max, Py.min; py_cases; lra.
Qed.

Lemma orbit_saturates_witness :
  phi (orbit init (mkQPointF 0 400)) = 1 /\
  phi (orbit init (mkQPointF 0 (-400))) = 179 /\
  phi (orbit init (mkQPointF 0 10)) <= phi (orbit init (mkQPointF 0 2)).
Proof.
  assert (H : 1 <= phi init <= 179) by (simpl; lra).
  split; [|split].
  - apply (orbit_saturates init (mkQPointF 0 400) (mkQPointF 0 400) H).
    simpl. lra.
  - apply (orbit_saturates init (mkQPointF 0 (-400)) (mkQPointF 0 0) H).
    simpl. lra.
  - apply (orbit_saturates init (mkQPointF 0 2) (mkQPointF 0 10) H).
    simpl. lra.
Defined.

(** * Exact operations on binary64 floats *)

(** ** Floats that carry an integer *)

Module ExactFacts.

Import Floats Binary64 Pixels Exact.
Local Open Scope Z_scope.








Lemma shl_0 (p : positive) : shl p 0 = p.
Proof. reflexivity. Qed.













Local Close Scope Z_scope.
Local Open Scope float_scope.







End ExactFacts.

(** ** Drags between whole-number pointer positions *)

Module PixelFacts.

Import Floats Binary64 Pixels Exact ExactFacts.
Local Open Scope float_scope.

















End PixelFacts.
